(** * Stimulus generator for the same-different-selection task

    A shallow embedding of
    [same-different-selection/assets/old_generate_stimuli.py] and the
    properties of its shape geometry, instance layout and file naming.

    Conventions of the embedding.
    - Python [int] is [Z]; [a // b] on ints is [Z.div] (both floor).
    - Python [float] is idealised as a real number: [R] with exact
      arithmetic, [math.cos] and [math.sin] as [cos] and [sin], [3**0.5]
      as [Rpower 3 0.5], and [a // b] on floats as the floor of the
      quotient.  Rounding of the machine arithmetic is not modelled.
    - The PIL canvas is the record of what was asked of it: mode, size,
      background and the drawing primitives in call order.  Rasterising
      is PIL's business; two canvases with the same record hold the same
      pixels.
    - The working directory is a finite map from file names to what was
      saved under them.
    - An exception ends the computation and leaves the working directory
      as it was when it was raised.
    - Which color strings [Image.new] accepts and which file names
      [image.save] can write is decided outside the script; a
      [collaborator] carries these two answers, and [save_shape_in]
      is the script's function run against one.  [save_shape] is the
      run against a collaborator that accepts every call. *)

From Stdlib Require Import ZArith Reals Lra Lia.
From stdpp Require Import gmap strings list pretty.

Local Open Scope Z_scope.

(** ** The PIL surface the script uses *)

Module PIL.

(** One call on an [ImageDraw] handle.  Boxes are the four-element
    lists the script builds from ints; polygon vertices are pairs of
    numbers, ints being read as reals. *)
Inductive prim : Type :=
| Ellipse (box : list Z) (fill : string)
| Rectangle (box : list Z) (fill : string)
| Polygon (points : list (R * R)) (fill : string).

Record image : Type := mk_image {
  img_mode : string;
  img_size : Z * Z;
  img_background : string;
  img_prims : list prim
}.

(** [Image.new(mode, size, color)] *)
Definition Image_new (mode : string) (size : Z * Z) (color : string) : image :=
  {| img_mode := mode; img_size := size; img_background := color;
     img_prims := [] |}.

(** A drawing call goes through the handle to the image it aliases, so
    the image after the call is the image before it with one more
    primitive. *)
Definition paint (p : prim) (draw : image) : image :=
  {| img_mode := img_mode draw; img_size := img_size draw;
     img_background := img_background draw;
     img_prims := img_prims draw ++ [p] |}.

Definition ellipse (draw : image) (box : list Z) (fill : string) : image :=
  paint (Ellipse box fill) draw.
Definition rectangle (draw : image) (box : list Z) (fill : string) : image :=
  paint (Rectangle box fill) draw.
Definition polygon (draw : image) (points : list (R * R)) (fill : string) : image :=
  paint (Polygon points fill) draw.

End PIL.
Import PIL.

(** ** Float helpers *)

(** [a // b] on floats, as the floor of the exact quotient.  The script
    applies it to a double-precision product; the two agree on the sizes
    of the size mapping, and can differ by one for operands so large
    that the product rounds across a whole number. *)
Definition float_floordiv (a b : R) : R := IZR (Zfloor (a / b)).

(** ** Shape geometry *)

Definition draw_circle (draw : image) (center : Z * Z) (radius : Z)
    (color : string) : image :=
  let '(x, y) := center in
  ellipse draw [x - radius; y - radius; x + radius; y + radius] color.

Definition draw_square (draw : image) (center : Z * Z) (size : Z)
    (color : string) : image :=
  let '(x, y) := center in
  let half_size := size `div` 2 in
  rectangle draw
    [x - half_size; y - half_size; x + half_size; y + half_size] color.

(** The three vertices [draw_triangle] hands to [draw.polygon]. *)
Definition triangle_points (center : Z * Z) (size : Z) : list (R * R) :=
  let '(x, y) := center in
  let height := (IZR size * (Rpower 3 0.5 / 2))%R in
  let top_point := (IZR x, (IZR y - float_floordiv height 2)%R) in
  let left_point :=
    (IZR (x - size `div` 2), (IZR y + float_floordiv height 2)%R) in
  let right_point :=
    (IZR (x + size `div` 2), (IZR y + float_floordiv height 2)%R) in
  [top_point; left_point; right_point].

Definition draw_triangle (draw : image) (center : Z * Z) (size : Z)
    (color : string) : image :=
  polygon draw (triangle_points center size) color.

(** One turn of the loop of [draw_star]: two appends to [points]. *)
Definition star_step (x y half_size : Z) (points : list (R * R)) (i : Z)
    : list (R * R) :=
  let angle := (IZR i * (2 * 3.14159 / 5) - 3.14159 / 2)%R in
  let outer_x := (IZR x + IZR half_size * cos angle)%R in
  let outer_y := (IZR y + IZR half_size * sin angle)%R in
  let points := points ++ [(outer_x, outer_y)] in
  let inner_angle := (angle + 3.14159 / 5)%R in
  let inner_x := (IZR x + IZR half_size * 0.5 * cos inner_angle)%R in
  let inner_y := (IZR y + IZR half_size * 0.5 * sin inner_angle)%R in
  points ++ [(inner_x, inner_y)].

(** The vertex list [draw_star] has built when the loop over [range(5)]
    ends. *)
Definition star_points (center : Z * Z) (size : Z) : list (R * R) :=
  let '(x, y) := center in
  let half_size := size `div` 2 in
  foldl (star_step x y half_size) [] (seqZ 0 5).

Definition draw_star (draw : image) (center : Z * Z) (size : Z)
    (color : string) : image :=
  polygon draw (star_points center size) color.

Definition draw_shape (draw : image) (shape : string) (center : Z * Z)
    (size : Z) (color : string) : image :=
  if String.eqb shape "circle" then draw_circle draw center (size `div` 2) color
  else if String.eqb shape "square" then draw_square draw center size color
  else if String.eqb shape "triangle" then draw_triangle draw center size color
  else if String.eqb shape "star" then draw_star draw center size color
  else draw.

(** ** Exceptions and the working directory *)

Inductive pykey : Type :=
| KInt (z : Z)
| KStr (s : string).

Inductive exn : Type :=
| KeyError (key : pykey)
| UnboundLocalError (name : string)
| ValueError (specifier : string)
| OSError (filename : string).

(** [KeyError] is a subclass of [LookupError]; [UnboundLocalError] is a
    [NameError]; [ValueError] is what [Image.new] raises on a color
    string it does not know; [OSError] stands for what [image.save]
    raises when the file cannot be written ([FileNotFoundError] and its
    siblings). *)
Definition is_LookupError (e : exn) : bool :=
  match e with
  | KeyError _ => true
  | UnboundLocalError _ | ValueError _ | OSError _ => false
  end.

(** What [image.save(filename, format)] leaves on disk. *)
Record saved : Type := mk_saved {
  saved_format : string;
  saved_image : image
}.

Abbreviation files := (gmap string saved).

Definition M (A : Type) : Type := files → (exn + A) * files.

Definition raise {A} (e : exn) : M A := λ fs, (inl e, fs).

#[export] Instance M_ret : MRet M := λ A a fs, (inr a, fs).
#[export] Instance M_bind : MBind M := λ A B k m fs,
  match m fs with
  | (inl e, fs') => (inl e, fs')
  | (inr a, fs') => k a fs'
  end.

(** [d[k]] on a dict. *)
Definition getitem {K V} `{Countable K} (d : gmap K V) (k : K)
    (key : pykey) : M V :=
  match d !! k with
  | Some v => mret v
  | None => raise (KeyError key)
  end.

(** [image.save(filename, format)] when the file can be written:
    creates or overwrites the file. *)
Definition save (im : image) (filename format : string) : M unit :=
  λ fs, (inr tt, <[filename := mk_saved format im]> fs).

(** What the script cannot decide for itself: the color strings PIL's
    color parser accepts, and the file names the file system lets
    [image.save] write. *)
Record collaborator : Type := mk_collaborator {
  known_color : string → bool;
  writable : string → bool
}.

(** [Image.new(mode, size, color)] with a color string: PIL parses the
    color first and raises [ValueError] when it does not know it. *)
Definition Image_new_in (c : collaborator) (mode : string) (size : Z * Z)
    (color : string) : M image :=
  if known_color c color then mret (Image_new mode size color)
  else raise (ValueError color).

(** [image.save(filename, format)]: raises and writes nothing when the
    file cannot be created. *)
Definition save_in (c : collaborator) (im : image) (filename format : string)
    : M unit :=
  if writable c filename then save im filename format
  else raise (OSError filename).

(** ** The composer *)

Definition size_mapping : gmap Z string :=
  {[ 35 := "sm"; 70 := "med"; 105 := "lg" ]}.

Definition color_mapping : gmap string string :=
  {[ "red" := "#D81B60"; "green" := "#009E73"; "blue" := "#1E88E5";
     "yellow" := "#FFC107" ]}.

(** The [if]/[elif]/[elif] that binds [centers] in the multi-instance
    branch.  It has no [else]: falling through would leave [centers]
    unbound at the loop. *)
Definition multi_centers (canvas_size cardinality : Z)
    : option (list (Z * Z)) :=
  if cardinality =? 2 then
    Some [(canvas_size `div` 2, canvas_size `div` 4);
          (canvas_size `div` 2, (3 * canvas_size) `div` 4)]
  else if cardinality =? 3 then
    Some [(canvas_size `div` 2, canvas_size `div` 4);
          (canvas_size `div` 4, (3 * canvas_size) `div` 4);
          ((3 * canvas_size) `div` 4, (3 * canvas_size) `div` 4)]
  else if cardinality =? 4 then
    Some [(canvas_size `div` 4, canvas_size `div` 4);
          ((3 * canvas_size) `div` 4, canvas_size `div` 4);
          (canvas_size `div` 4, (3 * canvas_size) `div` 4);
          ((3 * canvas_size) `div` 4, (3 * canvas_size) `div` 4)]
  else None.

(** The [center] of the single-instance branch. *)
Definition single_center (canvas_size : Z) : Z * Z :=
  (canvas_size `div` 2, canvas_size `div` 2).

(** [for center in centers: draw_shape(draw, shape, center, size, color)] *)
Definition draw_each (draw : image) (shape : string) (centers : list (Z * Z))
    (size : Z) (color : string) : image :=
  foldl (λ draw center, draw_shape draw shape center size color) draw centers.

Definition save_shape_in (c : collaborator) (shape : string) (size : Z)
    (color : string) (cardinality : Z) (background_color : string)
    : M unit :=
  word_size ← getitem size_mapping size (KInt size);
  hex_color ← getitem color_mapping color (KStr color);
  let canvas_size := 220 in
  image ← Image_new_in c "RGB" (canvas_size, canvas_size) background_color;
  '(image, filename) ←
    (if decide (cardinality ∈ [2; 3; 4]) then
       centers ← match multi_centers canvas_size cardinality with
                 | Some centers => mret centers
                 | None => raise (UnboundLocalError "centers")
                 end;
       let image := draw_each image shape centers size hex_color in
       mret (image,
            word_size +:+ "-" +:+ color +:+ "-" +:+ shape +:+ "-"
              +:+ pretty cardinality)
     else
       let center := single_center canvas_size in
       let image :=
         if String.eqb shape "circle" then
           draw_circle image center (size `div` 2) hex_color
         else if String.eqb shape "square" then
           draw_square image center size hex_color
         else if String.eqb shape "triangle" then
           draw_triangle image center size hex_color
         else if String.eqb shape "star" then
           draw_star image center size hex_color
         else image in
       mret (image, word_size +:+ "-" +:+ color +:+ "-" +:+ shape));
  let filename :=
    if bool_decide (background_color ≠ "white")
    then filename +:+ "-" +:+ background_color
    else filename in
  let filename := filename +:+ ".webp" in
  save_in c image filename "WEBP".

(** A collaborator that accepts every color string and writes every
    file name. *)
Definition accepting : collaborator :=
  {| known_color := λ _, true; writable := λ _, true |}.

(** [save_shape] when the collaborator accepts its calls: what the
    script itself determines about a run. *)
Definition save_shape (shape : string) (size : Z) (color : string)
    (cardinality : Z) (background_color : string) : M unit :=
  save_shape_in accepting shape size color cardinality background_color.

(** The grid the script enumerates. *)
Definition shapes : list string := ["circle"; "square"; "triangle"; "star"].
Definition sizes : list Z := [35; 70; 105].
Definition colors : list string := ["red"; "green"; "blue"; "yellow"].
Definition cardinalities : list Z := [1; 2; 3; 4].
Definition background_colors : list string := ["white"; "black"; "gray"].

(** ** Vocabulary of the statements *)

(** The canvas [save_shape] starts from. *)
Definition blank (background_color : string) : image :=
  Image_new "RGB" (220, 220) background_color.

(** The last two steps [save_shape] applies to the file name. *)
Definition with_suffixes (stem background_color : string) : string :=
  (if bool_decide (background_color ≠ "white")
   then stem +:+ "-" +:+ background_color else stem) +:+ ".webp".

(** The naming scheme in the words of the specification. *)
Definition spec_filename (sizeLabel colorName shapeTag : string)
    (cardinality : Z) (backgroundColor : string) : string :=
  let stem := sizeLabel +:+ "-" +:+ colorName +:+ "-" +:+ shapeTag in
  let stem :=
    if decide (cardinality = 1) then stem
    else stem +:+ "-" +:+ pretty cardinality in
  let stem :=
    if decide (backgroundColor = "white") then stem
    else stem +:+ "-" +:+ backgroundColor in
  stem +:+ ".webp".

(** The layout table in the words of the specification. *)
Definition spec_layout : list (Z * list (Z * Z)) :=
  [ (1, [(110, 110)]);
    (2, [(110, 55); (110, 165)]);
    (3, [(110, 55); (55, 165); (165, 165)]);
    (4, [(55, 55); (165, 55); (55, 165); (165, 165)]) ].

(** The centers [save_shape] draws at, read off its two branches. *)
Definition instance_centers (cardinality : Z) : list (Z * Z) :=
  if decide (cardinality ∈ [2; 3; 4])
  then default [] (multi_centers 220 cardinality)
  else [single_center 220].

(** The square of half-side [r] around a center, and the disc of radius
    [r] inside it. *)
Definition in_square (c : Z * Z) (r : R) (p : R * R) : Prop :=
  (IZR c.1 - r <= p.1 <= IZR c.1 + r)%R
  ∧ (IZR c.2 - r <= p.2 <= IZR c.2 + r)%R.

Definition in_disc (c : Z * Z) (r : R) (p : R * R) : Prop :=
  ((p.1 - IZR c.1) * (p.1 - IZR c.1) + (p.2 - IZR c.2) * (p.2 - IZR c.2)
   <= r * r)%R.

(** The point at distance [r] from [c] in direction [theta]. *)
Definition polar (c : Z * Z) (r theta : R) : R * R :=
  ((IZR c.1 + r * cos theta)%R, (IZR c.2 + r * sin theta)%R).

(** The ten star vertices as the specification lays them out: for
    [i = 0..4] an outer vertex at distance [outer_radius] and angle
    [i·(2π/5) − π/2], then an inner vertex at half that distance and the
    angle advanced by [π/5]; [pi] is the value used for π. *)
Definition star_vertices (pi outer_radius : R) (center : Z * Z)
    : list (R * R) :=
  i ← seqZ 0 5;
  let theta := (IZR i * (2 * pi / 5) - pi / 2)%R in
  [polar center outer_radius theta;
   polar center (0.5 * outer_radius) (theta + pi / 5)].

(** The three triangle vertices as the specification lays them out:
    height [size·(√3/2)], apex half the height (floored) above the
    center, base corners [half_base] to either side and half the height
    (floored) below. *)
Definition triangle_vertices (half_base : R) (center : Z * Z) (size : Z)
    : list (R * R) :=
  let height := (IZR size * (sqrt 3 / 2))%R in
  let rise := IZR (Zfloor (height / 2)) in
  [ (IZR center.1, (IZR center.2 - rise)%R);
    ((IZR center.1 - half_base)%R, (IZR center.2 + rise)%R);
    ((IZR center.1 + half_base)%R, (IZR center.2 + rise)%R) ].

(** ** The enumeration driver *)

(** [for x in l: body(x)]: an exception raised by the body ends the
    loop. *)
Fixpoint for_each {A} (l : list A) (body : A → M unit) : M unit :=
  match l with
  | [] => mret tt
  | x :: l => _ ← body x; for_each l body
  end.

(** The nest of five loops at the bottom of the script. *)
Definition main : M unit :=
  for_each shapes (λ shape,
    for_each sizes (λ size,
      for_each colors (λ color,
        for_each cardinalities (λ cardinality,
          for_each background_colors (λ background_color,
            save_shape shape size color cardinality background_color))))).

(** ** Vocabulary for the driver and the drawn geometry *)

(** A parameter tuple, and [save_shape] applied to one. *)
Definition stimulus : Type := string * Z * string * Z * string.

Definition save_stimulus (t : stimulus) : M unit :=
  let '(shape, size, color, cardinality, background_color) := t in
  save_shape shape size color cardinality background_color.

(** The tuples in the order the five loops visit them. *)
Definition grid : list stimulus :=
  shape ← shapes; size ← sizes; color ← colors;
  cardinality ← cardinalities; background_color ← background_colors;
  [(shape, size, color, cardinality, background_color)].

(** The name [save_shape] writes to, for any cardinality. *)
Definition written_name (word_size color shape : string) (cardinality : Z)
    (background_color : string) : string :=
  with_suffixes
    (if decide (cardinality ∈ [2; 3; 4])
     then word_size +:+ "-" +:+ color +:+ "-" +:+ shape +:+ "-"
            +:+ pretty cardinality
     else word_size +:+ "-" +:+ color +:+ "-" +:+ shape)
    background_color.

(** Name and content of the file of a tuple. *)
Definition grid_name (t : stimulus) : string :=
  let '(shape, size, color, cardinality, background_color) := t in
  spec_filename (default "" (size_mapping !! size)) color shape cardinality
    background_color.

Definition grid_canvas (t : stimulus) : image :=
  let '(shape, size, color, cardinality, background_color) := t in
  draw_each (blank background_color) shape (instance_centers cardinality)
    size (default "" (color_mapping !! color)).

Definition grid_file (t : stimulus) : saved := mk_saved "WEBP" (grid_canvas t).

(** The points that bound a primitive: the corners of a box, the
    vertices of a polygon. *)
Definition prim_points (p : prim) : list (R * R) :=
  match p with
  | Ellipse [x0; y0; x1; y1] _ | Rectangle [x0; y0; x1; y1] _ =>
      [(IZR x0, IZR y0); (IZR x1, IZR y0); (IZR x0, IZR y1); (IZR x1, IZR y1)]
  | Ellipse _ _ | Rectangle _ _ => []
  | Polygon points _ => points
  end.

Definition prim_fill (p : prim) : string :=
  match p with
  | Ellipse _ fill | Rectangle _ fill | Polygon _ fill => fill
  end.

(** A collaborator for concrete runs.  Like PIL it knows the three
    background names of the grid and does not know the string
    [notacolor]; it writes into a directory without subdirectories, so
    a name with a slash in it cannot be written.  PIL knows more color
    strings than these three; no statement below depends on one. *)
Fixpoint has_slash (name : string) : bool :=
  match name with
  | EmptyString => false
  | String a rest => String.eqb (String a EmptyString) "/" || has_slash rest
  end.

Definition grid_collaborator : collaborator :=
  {| known_color := λ color, bool_decide (color ∈ background_colors);
     writable := λ name, negb (has_slash name) |}.

(** Squared distance from a center. *)
Definition dist2 (c : Z * Z) (p : R * R) : R :=
  ((p.1 - IZR c.1) * (p.1 - IZR c.1) + (p.2 - IZR c.2) * (p.2 - IZR c.2))%R.

(** Pixel coordinates of the 220×220 canvas run from 0 to 219. *)
Definition on_canvas (p : R * R) : Prop :=
  (0 <= p.1 <= 219 ∧ 0 <= p.2 <= 219)%R.

(** Two points at least [gap] apart along one of the axes. *)
Definition apart_by (gap : R) (p q : R * R) : Prop :=
  (p.1 + gap <= q.1 ∨ q.1 + gap <= p.1 ∨ p.2 + gap <= q.2 ∨ q.2 + gap <= p.2)%R.

(** * Properties *)

(** ** Lookup tables *)

Lemma size_mapping_None size :
  size ∉ dom size_mapping ↔ size_mapping !! size = None.
Proof. apply not_elem_of_dom. Qed.

Lemma color_mapping_None color :
  color ∉ dom color_mapping ↔ color_mapping !! color = None.
Proof. apply not_elem_of_dom. Qed.

Lemma dom_size_mapping : dom size_mapping = list_to_set sizes.
Proof. unfold size_mapping, sizes. rewrite !dom_insert_L. set_solver. Qed.

Lemma dom_color_mapping : dom color_mapping = list_to_set colors.
Proof. unfold color_mapping, colors. rewrite !dom_insert_L. set_solver. Qed.

(** ** Running [save_shape] *)

(** Unfold one run of [save_shape] down to the two dictionary lookups. *)
Ltac run_save_shape :=
  unfold save_shape, save_shape_in, Image_new_in, save_in, getitem;
  cbn [known_color writable accepting];
  unfold mbind, M_bind, mret, M_ret, save, raise.

Lemma save_shape_multi shape size color cardinality background_color
    (fs : files) word_size hex_color centers :
  size_mapping !! size = Some word_size →
  color_mapping !! color = Some hex_color →
  cardinality ∈ [2; 3; 4] →
  multi_centers 220 cardinality = Some centers →
  save_shape shape size color cardinality background_color fs =
    (inr tt,
     <[with_suffixes
         (word_size +:+ "-" +:+ color +:+ "-" +:+ shape +:+ "-"
            +:+ pretty cardinality) background_color
       := mk_saved "WEBP"
            (draw_each (blank background_color) shape centers size hex_color)]>
       fs).
Proof.
  intros Hsize Hcolor Hin Hcenters. run_save_shape.
  rewrite Hsize, Hcolor.
  destruct (decide (cardinality ∈ [2; 3; 4])) as [_|Hn]; [|done].
  rewrite Hcenters. reflexivity.
Qed.

Lemma save_shape_single shape size color cardinality background_color
    (fs : files) word_size hex_color :
  size_mapping !! size = Some word_size →
  color_mapping !! color = Some hex_color →
  cardinality ∉ [2; 3; 4] →
  save_shape shape size color cardinality background_color fs =
    (inr tt,
     <[with_suffixes (word_size +:+ "-" +:+ color +:+ "-" +:+ shape)
         background_color
       := mk_saved "WEBP"
            (draw_shape (blank background_color) shape (110, 110) size
               hex_color)]>
       fs).
Proof.
  intros Hsize Hcolor Hin. run_save_shape.
  rewrite Hsize, Hcolor.
  destruct (decide (cardinality ∈ [2; 3; 4])) as [Hy|_]; [done|].
  reflexivity.
Qed.

(** The multi-instance branch always finds [centers] bound. *)
Lemma multi_centers_bound cardinality :
  cardinality ∈ [2; 3; 4] → is_Some (multi_centers 220 cardinality).
Proof.
  intros Hin. apply list_elem_of_In in Hin. simpl in Hin.
  destruct Hin as [<-|[<-|[<-|[]]]]; eexists; reflexivity.
Qed.

(** Whatever the cardinality, the saved canvas is the blank one with the
    shape drawn at each of [instance_centers], in order. *)
Lemma save_shape_draws_at shape size color cardinality background_color
    (fs : files) word_size hex_color :
  size_mapping !! size = Some word_size →
  color_mapping !! color = Some hex_color →
  ∃ filename,
    save_shape shape size color cardinality background_color fs =
      (inr tt,
       <[filename
         := mk_saved "WEBP"
              (draw_each (blank background_color) shape
                 (instance_centers cardinality) size hex_color)]> fs).
Proof.
  intros Hsize Hcolor. unfold instance_centers.
  destruct (decide (cardinality ∈ [2; 3; 4])) as [Hin|Hout].
  - destruct (multi_centers_bound _ Hin) as [centers Hcenters].
    eexists. rewrite Hcenters.
    by apply save_shape_multi.
  - eexists. by apply save_shape_single.
Qed.

(** Outside 2, 3 and 4 the cardinality does not matter at all, whatever
    the other arguments. *)
Lemma save_shape_cardinality_irrelevant shape size color cardinality
    cardinality' background_color (fs : files) :
  cardinality ∉ [2; 3; 4] →
  cardinality' ∉ [2; 3; 4] →
  save_shape shape size color cardinality background_color fs
  = save_shape shape size color cardinality' background_color fs.
Proof.
  intros Hout Hout'. run_save_shape.
  destruct (size_mapping !! size); [|done].
  destruct (color_mapping !! color); [|done].
  destruct (decide (cardinality ∈ [2; 3; 4])) as [|_]; [done|].
  destruct (decide (cardinality' ∈ [2; 3; 4])) as [|_]; [done|].
  reflexivity.
Qed.

Lemma one_not_multi : 1 ∉ [2; 3; 4].
Proof. intros Hin%list_elem_of_In. simpl in Hin. lia. Qed.

Lemma with_suffixes_white stem : with_suffixes stem "white" = stem +:+ ".webp".
Proof. reflexivity. Qed.

Lemma with_suffixes_other stem background_color :
  background_color ≠ "white" →
  with_suffixes stem background_color
  = (stem +:+ "-" +:+ background_color) +:+ ".webp".
Proof. intros Hne. unfold with_suffixes. by rewrite bool_decide_eq_true_2. Qed.

(** ** Drawing *)

Lemma draw_shape_known draw shape center size color :
  shape ∈ shapes →
  ∃ p, draw_shape draw shape center size color = paint p draw.
Proof.
  intros Hin. apply list_elem_of_In in Hin. simpl in Hin.
  destruct center as [x y].
  destruct Hin as [<-|[<-|[<-|[<-|[]]]]]; eexists; reflexivity.
Qed.

Lemma draw_each_length draw shape centers size color :
  shape ∈ shapes →
  length (img_prims (draw_each draw shape centers size color))
  = (length (img_prims draw) + length centers)%nat.
Proof.
  intros Hin. revert draw.
  induction centers as [|center centers IH]; intros draw; simpl.
  - lia.
  - unfold draw_each in *. simpl. rewrite IH.
    destruct (draw_shape_known draw shape center size color Hin) as [p ->].
    simpl. rewrite length_app. simpl. lia.
Qed.

Lemma draw_shape_unknown draw shape center size color :
  shape ∉ shapes → draw_shape draw shape center size color = draw.
Proof.
  intros Hout. unfold draw_shape.
  repeat match goal with
  | |- context [String.eqb shape ?tag] =>
      destruct (String.eqb_spec shape tag) as [->|_];
      [exfalso; apply Hout; unfold shapes; set_solver|]
  end.
  reflexivity.
Qed.

(** ** Strings *)

Lemma append_assoc (s1 s2 s3 : string) :
  (s1 +:+ s2) +:+ s3 = s1 +:+ s2 +:+ s3.
Proof.
  induction s1 as [|a s1 IH]; [done|].
  change (String a ((s1 +:+ s2) +:+ s3) = String a (s1 +:+ s2 +:+ s3)).
  by rewrite IH.
Qed.

Lemma spec_filename_single sizeLabel colorName shapeTag backgroundColor :
  spec_filename sizeLabel colorName shapeTag 1 backgroundColor
  = with_suffixes (sizeLabel +:+ "-" +:+ colorName +:+ "-" +:+ shapeTag)
      backgroundColor.
Proof.
  unfold spec_filename, with_suffixes. simpl.
  destruct (decide (backgroundColor = "white")) as [->|Hne]; [done|].
  by rewrite bool_decide_eq_true_2.
Qed.

Lemma spec_filename_multi sizeLabel colorName shapeTag cardinality
    backgroundColor :
  cardinality ≠ 1 →
  spec_filename sizeLabel colorName shapeTag cardinality backgroundColor
  = with_suffixes
      (sizeLabel +:+ "-" +:+ colorName +:+ "-" +:+ shapeTag +:+ "-"
         +:+ pretty cardinality) backgroundColor.
Proof.
  intros Hc. unfold spec_filename, with_suffixes. cbv zeta.
  destruct (decide (cardinality = 1)) as [|_]; [done|].
  destruct (decide (backgroundColor = "white")) as [->|Hne].
  - simpl. by rewrite !append_assoc.
  - rewrite bool_decide_eq_true_2 by done. by rewrite !append_assoc.
Qed.

(** ** Running [save_shape_in] *)

Ltac run_save_shape_in :=
  unfold save_shape_in, Image_new_in, save_in, getitem;
  unfold mbind, M_bind, mret, M_ret, save, raise.

Lemma written_name_spec word_size color shape cardinality background_color :
  cardinality ∈ cardinalities →
  written_name word_size color shape cardinality background_color
  = spec_filename word_size color shape cardinality background_color.
Proof.
  intros Hcard. unfold written_name.
  destruct (decide (cardinality ∈ [2; 3; 4])) as [Hin|Hout].
  - rewrite spec_filename_multi; [done|].
    intros ->. by apply one_not_multi.
  - assert (cardinality = 1) as ->.
    { apply list_elem_of_In in Hcard. simpl in Hcard.
      destruct Hcard as [<-|[<-|[<-|[<-|[]]]]]; [done|..];
        exfalso; apply Hout; repeat constructor. }
    by rewrite spec_filename_single.
Qed.

(** PIL does not know the background: [Image.new] raises, before any
    drawing and before a file name exists. *)
Lemma save_shape_in_rejected (c : collaborator) shape size color cardinality
    background_color (fs : files) word_size hex_color :
  size_mapping !! size = Some word_size →
  color_mapping !! color = Some hex_color →
  known_color c background_color = false →
  save_shape_in c shape size color cardinality background_color fs
  = (inl (ValueError background_color), fs).
Proof.
  intros Hsize Hcolor Hbg. run_save_shape_in.
  by rewrite Hsize, Hcolor, Hbg.
Qed.

(** PIL knows the background: the canvas is drawn and the name built,
    and the outcome is decided by [image.save]. *)
Lemma save_shape_in_drawn (c : collaborator) shape size color cardinality
    background_color (fs : files) word_size hex_color :
  size_mapping !! size = Some word_size →
  color_mapping !! color = Some hex_color →
  known_color c background_color = true →
  save_shape_in c shape size color cardinality background_color fs
  = if writable c
         (written_name word_size color shape cardinality background_color)
    then
      (inr tt,
       <[written_name word_size color shape cardinality background_color
         := mk_saved "WEBP"
              (draw_each (blank background_color) shape
                 (instance_centers cardinality) size hex_color)]> fs)
    else
      (inl (OSError
              (written_name word_size color shape cardinality
                 background_color)), fs).
Proof.
  intros Hsize Hcolor Hbg. run_save_shape_in.
  rewrite Hsize, Hcolor, Hbg. unfold written_name, instance_centers.
  destruct (decide (cardinality ∈ [2; 3; 4])) as [Hin|Hout].
  - destruct (multi_centers_bound _ Hin) as [centers Hcenters].
    rewrite Hcenters. cbn [default]. by destruct (writable c _).
  - by destruct (writable c _).
Qed.

(** When the collaborator accepts the background and the name, the run
    is the run [save_shape] describes. *)
Lemma save_shape_in_accepted (c : collaborator) shape size color cardinality
    background_color (fs : files) word_size hex_color :
  size_mapping !! size = Some word_size →
  color_mapping !! color = Some hex_color →
  known_color c background_color = true →
  writable c
    (written_name word_size color shape cardinality background_color)
  = true →
  save_shape_in c shape size color cardinality background_color fs
  = save_shape shape size color cardinality background_color fs.
Proof.
  intros Hsize Hcolor Hbg Hname. unfold save_shape.
  rewrite !(save_shape_in_drawn _ _ _ _ _ _ _ _ _ Hsize Hcolor) by done.
  by rewrite Hname.
Qed.

(** ** File naming *)

(** C1, as built.  Take a size of the size mapping, a color of the
    palette and a cardinality from 1 to 4, and let PIL accept the
    background as a color and the file system accept the name.  Then
    [save_shape] writes its file under the name
    [{sizeLabel}-{colorName}-{shapeTag}], followed by [-{cardinality}]
    when the cardinality is 2, 3 or 4, followed by [-{backgroundColor}]
    exactly when the background is not white, followed by [.webp]. *)
Theorem save_shape_filename (c : collaborator) shape size color cardinality
    background_color (fs : files) sizeLabel :
  size_mapping !! size = Some sizeLabel →
  color ∈ dom color_mapping →
  cardinality ∈ cardinalities →
  known_color c background_color = true →
  writable c
    (spec_filename sizeLabel color shape cardinality background_color)
  = true →
  ∃ content,
    save_shape_in c shape size color cardinality background_color fs =
      (inr tt,
       <[spec_filename sizeLabel color shape cardinality background_color
         := content]> fs).
Proof.
  intros Hsize [hex_color Hcolor]%elem_of_dom Hcard Hbg Hname.
  rewrite (save_shape_in_drawn _ _ _ _ _ _ _ _ _ Hsize Hcolor Hbg).
  rewrite written_name_spec by done. rewrite Hname. eauto.
Qed.

(** The two file names the specification quotes. *)
Lemma save_shape_filename_examples :
  (spec_filename "med" "blue" "star" 3 "white" = "med-blue-star-3.webp"
   ∧ ∃ content,
       save_shape_in grid_collaborator "star" 70 "blue" 3 "white" ∅ =
         (inr tt,
          <[spec_filename "med" "blue" "star" 3 "white" := content]> ∅))
  ∧ (spec_filename "sm" "red" "circle" 1 "black" = "sm-red-circle-black.webp"
     ∧ ∃ content,
         save_shape_in grid_collaborator "circle" 35 "red" 1 "black" ∅ =
           (inr tt,
            <[spec_filename "sm" "red" "circle" 1 "black" := content]> ∅)).
Proof.
  split; (split; [vm_compute; reflexivity|]).
  - apply (save_shape_filename grid_collaborator "star" 70 "blue" 3 "white"
             ∅ "med").
    + reflexivity.
    + apply elem_of_dom. exists "#1E88E5". reflexivity.
    + unfold cardinalities. repeat constructor.
    + reflexivity.
    + vm_compute. reflexivity.
  - apply (save_shape_filename grid_collaborator "circle" 35 "red" 1 "black"
             ∅ "sm").
    + reflexivity.
    + apply elem_of_dom. exists "#D81B60". reflexivity.
    + unfold cardinalities. repeat constructor.
    + reflexivity.
    + vm_compute. reflexivity.
Defined.

(** C1, as stated, fails at (circle, 35, red, 1, notacolor): the size
    and the color are mapped and the cardinality is 1, but [Image.new]
    does not know the background and raises [ValueError] before a file
    name is built; nothing is written.  It fails again at
    (a/b, 35, red, 1, white), where the name [sm-red-a/b.webp] points
    into a directory that does not exist and [image.save] raises. *)
Lemma save_shape_filename_counterexample :
  (size_mapping !! 35 = Some "sm" ∧ "red" ∈ dom color_mapping
   ∧ 1 ∈ cardinalities)
  ∧ save_shape_in grid_collaborator "circle" 35 "red" 1 "notacolor" ∅
    = (inl (ValueError "notacolor"), ∅)
  ∧ (¬ ∃ content,
         save_shape_in grid_collaborator "circle" 35 "red" 1 "notacolor" ∅
         = (inr tt,
            <[spec_filename "sm" "red" "circle" 1 "notacolor" := content]> ∅))
  ∧ save_shape_in grid_collaborator "a/b" 35 "red" 1 "white" ∅
    = (inl (OSError "sm-red-a/b.webp"), ∅).
Proof.
  split_and!.
  - reflexivity.
  - apply elem_of_dom. exists "#D81B60". reflexivity.
  - unfold cardinalities. repeat constructor.
  - reflexivity.
  - intros [content Hrun]. discriminate Hrun.
  - reflexivity.
Qed.

(** ** The script on concrete inputs *)

Example circle_small :
  img_prims (draw_shape (blank "white") "circle" (110, 110) 35 "#D81B60")
  = [Ellipse [93; 93; 127; 127] "#D81B60"].
Proof. reflexivity. Qed.

Example square_large :
  img_prims (draw_shape (blank "white") "square" (55, 165) 105 "#1E88E5")
  = [Rectangle [3; 113; 107; 217] "#1E88E5"].
Proof. reflexivity. Qed.

Example centers_two : multi_centers 220 2 = Some [(110, 55); (110, 165)].
Proof. reflexivity. Qed.

Example centers_five : multi_centers 220 5 = None.
Proof. reflexivity. Qed.

Example four_circles :
  save_shape "circle" 70 "yellow" 4 "gray" ∅
  = (inr tt,
     {[ "med-yellow-circle-4-gray.webp"
        := mk_saved "WEBP"
             {| img_mode := "RGB"; img_size := (220, 220);
                img_background := "gray";
                img_prims := [ Ellipse [20; 20; 90; 90] "#FFC107";
                               Ellipse [130; 20; 200; 90] "#FFC107";
                               Ellipse [20; 130; 90; 200] "#FFC107";
                               Ellipse [130; 130; 200; 200] "#FFC107" ] |} ]}).
Proof. reflexivity. Qed.

Example unknown_size :
  save_shape "circle" 50 "red" 1 "white" ∅ = (inl (KeyError (KInt 50)), ∅).
Proof. reflexivity. Qed.

Example unknown_color :
  save_shape "circle" 35 "purple" 1 "white" ∅
  = (inl (KeyError (KStr "purple")), ∅).
Proof. reflexivity. Qed.

Example overwrite_same_name (fs : files) :
  snd (save_shape "square" 35 "red" 0 "white"
         (snd (save_shape "square" 35 "red" 1 "white" fs)))
  = snd (save_shape "square" 35 "red" 1 "white" fs).
Proof.
  rewrite (save_shape_cardinality_irrelevant _ _ _ 0 1)
    by (intros Hin%list_elem_of_In; simpl in Hin; lia).
  rewrite !(save_shape_single _ _ _ 1 _ _ "sm" "#D81B60")
    by (reflexivity || apply one_not_multi).
  simpl. apply insert_insert_eq.
Qed.

(** ** Layout *)

(** C2. For a known shape, a size of the size mapping and a color of the
    palette, the canvas [save_shape] saves is the blank canvas with the
    shape drawn once at each center the layout table lists for the
    cardinality, in that order, and with nothing else on it: (110,110)
    for 1; (110,55), (110,165) for 2; (110,55), (55,165), (165,165) for
    3; (55,55), (165,55), (55,165), (165,165) for 4. *)
Theorem save_shape_layout shape size color cardinality background_color
    (fs : files) word_size hex_color centers :
  shape ∈ shapes →
  size_mapping !! size = Some word_size →
  color_mapping !! color = Some hex_color →
  (cardinality, centers) ∈ spec_layout →
  let canvas :=
    draw_each (blank background_color) shape centers size hex_color in
  (∃ filename,
     save_shape shape size color cardinality background_color fs =
       (inr tt, <[filename := mk_saved "WEBP" canvas]> fs))
  ∧ length (img_prims canvas) = length centers.
Proof.
  intros Hshape Hsize Hcolor Hrow canvas. split.
  - assert (centers = instance_centers cardinality) as ->.
    { apply list_elem_of_In in Hrow. simpl in Hrow.
      destruct Hrow as [[= <- <-]|[[= <- <-]|[[= <- <-]|[[= <- <-]|[]]]]];
        reflexivity. }
    exact (save_shape_draws_at _ _ _ _ _ _ _ _ Hsize Hcolor).
  - subst canvas. by rewrite draw_each_length.
Qed.

Lemma save_shape_layout_witness :
  (∃ filename,
     save_shape "square" 70 "green" 3 "gray" ∅ =
       (inr tt,
        <[filename
          := mk_saved "WEBP"
               (draw_each (blank "gray") "square"
                  [(110, 55); (55, 165); (165, 165)] 70 "#009E73")]> ∅))
  ∧ length
      (img_prims
         (draw_each (blank "gray") "square"
            [(110, 55); (55, 165); (165, 165)] 70 "#009E73")) = 3%nat.
Proof.
  apply (save_shape_layout "square" 70 "green" 3 "gray" ∅ "med" "#009E73").
  - unfold shapes. repeat constructor.
  - reflexivity.
  - reflexivity.
  - unfold spec_layout. repeat constructor.
Defined.

(** ** Lookup failures *)

(** C3. When the size is not a key of the size mapping or the color is
    not a key of the color mapping, [save_shape] raises a [KeyError] (a
    [LookupError]) on the offending key; nothing is substituted for the
    missing entry, and the working directory is the one it started
    from: no file is written. *)
Theorem save_shape_lookup_error shape size color cardinality
    background_color (fs : files) :
  size ∉ dom size_mapping ∨ color ∉ dom color_mapping →
  ∃ key,
    (key = KInt size ∨ key = KStr color)
    ∧ is_LookupError (KeyError key) = true
    ∧ save_shape shape size color cardinality background_color fs =
        (inl (KeyError key), fs).
Proof.
  intros Hbad.
  destruct (size_mapping !! size) as [word_size|] eqn:Hsize.
  - destruct Hbad as [Hbad|Hbad].
    { apply size_mapping_None in Hbad. congruence. }
    apply color_mapping_None in Hbad.
    exists (KStr color). split_and!; [by right|done|].
    run_save_shape. by rewrite Hsize, Hbad.
  - exists (KInt size). split_and!; [by left|done|].
    run_save_shape. by rewrite Hsize.
Qed.

Lemma save_shape_lookup_error_witness :
  ∃ key,
    (key = KInt 50 ∨ key = KStr "purple")
    ∧ is_LookupError (KeyError key) = true
    ∧ save_shape "circle" 50 "purple" 1 "white" ∅ = (inl (KeyError key), ∅).
Proof.
  apply (save_shape_lookup_error "circle" 50 "purple" 1 "white" ∅).
  left. apply size_mapping_None. reflexivity.
Defined.

(** ** Dispatch *)

(** C6. Through [draw_shape], a circle of a given size at center
    [(cx, cy)] is one filled ellipse whose bounding box is
    [[cx − r, cy − r, cx + r, cy + r]] with [r = size // 2]. *)
Theorem draw_shape_circle_box draw cx cy size color :
  let r := size `div` 2 in
  draw_shape draw "circle" (cx, cy) size color
  = ellipse draw [cx - r; cy - r; cx + r; cy + r] color
  ∧ img_prims (draw_shape draw "circle" (cx, cy) size color)
    = img_prims draw ++ [Ellipse [cx - r; cy - r; cx + r; cy + r] color].
Proof. intros r. split; reflexivity. Qed.

(** C7. For a shape tag other than circle, square, triangle and star,
    [draw_shape] returns the canvas it was given: nothing is drawn.  It
    is a total function, so no error is raised either. *)
Theorem draw_shape_unrecognized draw shape center size color :
  shape ∉ shapes →
  draw_shape draw shape center size color = draw.
Proof. apply draw_shape_unknown. Qed.

Lemma draw_shape_unrecognized_witness :
  draw_shape (blank "white") "hexagon" (110, 110) 70 "#D81B60"
  = blank "white".
Proof.
  apply (draw_shape_unrecognized (blank "white") "hexagon" (110, 110) 70
           "#D81B60").
  unfold shapes. intros Hin%list_elem_of_In. simpl in Hin.
  destruct Hin as [?|[?|[?|[?|[]]]]]; discriminate.
Defined.

(** C9. At cardinality 1, with a known shape, [save_shape] saves exactly
    the canvas that [draw_shape] produces from the blank canvas at
    center (110, 110) with the same size and color: the inline dispatch
    and the generic one agree. *)
Theorem save_shape_single_is_dispatch shape size color background_color
    (fs : files) word_size hex_color :
  shape ∈ shapes →
  size_mapping !! size = Some word_size →
  color_mapping !! color = Some hex_color →
  ∃ filename,
    save_shape shape size color 1 background_color fs =
      (inr tt,
       <[filename
         := mk_saved "WEBP"
              (draw_shape (blank background_color) shape (110, 110) size
                 hex_color)]> fs).
Proof.
  intros _ Hsize Hcolor. eexists.
  apply (save_shape_single _ _ _ _ _ _ _ _ Hsize Hcolor).
  apply one_not_multi.
Qed.

Lemma save_shape_single_is_dispatch_witness :
  ∃ filename,
    save_shape "star" 105 "yellow" 1 "black" ∅ =
      (inr tt,
       <[filename
         := mk_saved "WEBP"
              (draw_shape (blank "black") "star" (110, 110) 105 "#FFC107")]>
         ∅).
Proof.
  apply (save_shape_single_is_dispatch "star" 105 "yellow" "black" ∅ "lg"
           "#FFC107").
  - unfold shapes. repeat constructor.
  - reflexivity.
  - reflexivity.
Defined.

(** C10. For a cardinality outside 2, 3 and 4 (0, 5, a negative number,
    as well as 1), [save_shape] does exactly what it does at
    cardinality 1 with the same other arguments: it saves, under the
    name without cardinality suffix, the blank canvas with the shape
    dispatched once at (110, 110), a canvas holding one primitive. *)
Theorem save_shape_other_cardinality shape size color cardinality
    background_color (fs : files) word_size hex_color :
  cardinality ∉ [2; 3; 4] →
  shape ∈ shapes →
  size_mapping !! size = Some word_size →
  color_mapping !! color = Some hex_color →
  let canvas :=
    draw_shape (blank background_color) shape (110, 110) size hex_color in
  save_shape shape size color cardinality background_color fs
  = save_shape shape size color 1 background_color fs
  ∧ save_shape shape size color cardinality background_color fs =
      (inr tt,
       <[spec_filename word_size color shape 1 background_color
         := mk_saved "WEBP" canvas]> fs)
  ∧ length (img_prims canvas) = 1%nat.
Proof.
  intros Hout Hshape Hsize Hcolor canvas. split_and!.
  - apply save_shape_cardinality_irrelevant; [done|apply one_not_multi].
  - rewrite spec_filename_single. by apply save_shape_single.
  - subst canvas.
    destruct (draw_shape_known (blank background_color) shape (110, 110)
                size hex_color Hshape) as [p ->].
    reflexivity.
Qed.

Lemma save_shape_other_cardinality_witness :
  let canvas := draw_shape (blank "white") "triangle" (110, 110) 35 "#D81B60" in
  save_shape "triangle" 35 "red" 5 "white" ∅
  = save_shape "triangle" 35 "red" 1 "white" ∅
  ∧ save_shape "triangle" 35 "red" 5 "white" ∅ =
      (inr tt,
       <[spec_filename "sm" "red" "triangle" 1 "white"
         := mk_saved "WEBP" canvas]> ∅)
  ∧ length (img_prims canvas) = 1%nat.
Proof.
  apply (save_shape_other_cardinality "triangle" 35 "red" 5 "white" ∅ "sm"
           "#D81B60").
  - intros Hin%list_elem_of_In. simpl in Hin. lia.
  - unfold shapes. repeat constructor.
  - reflexivity.
  - reflexivity.
Defined.

(** ** Non-overlap of the layout *)

Lemma leg_le_hypotenuse (a b r : R) :
  (0 <= r)%R → (a * a + b * b <= r * r)%R → (- r <= a <= r)%R.
Proof.
  intros Hr Hab. pose proof (Rle_0_sqr b) as Hb. unfold Rsqr in Hb.
  split; apply Rnot_lt_le; intros Hlt; nra.
Qed.

Lemma in_disc_in_square c r p : (0 <= r)%R → in_disc c r p → in_square c r p.
Proof.
  unfold in_disc, in_square. intros Hr Hd.
  pose proof (leg_le_hypotenuse _ _ _ Hr Hd) as Hx.
  rewrite Rplus_comm in Hd.
  pose proof (leg_le_hypotenuse _ _ _ Hr Hd) as Hy.
  lra.
Qed.

Lemma squares_apart (c1 c2 : Z * Z) (r1 r2 : R) (p : R * R) :
  (r1 <= 52.5)%R → (r2 <= 52.5)%R →
  Z.abs (c1.1 - c2.1) = 110 ∨ Z.abs (c1.2 - c2.2) = 110 →
  ¬ (in_square c1 r1 p ∧ in_square c2 r2 p).
Proof.
  intros Hr1 Hr2 Hfar [[Hx1 Hy1] [Hx2 Hy2]].
  destruct Hfar as [Hfar|Hfar].
  - assert (c1.1 - c2.1 = 110 ∨ c1.1 - c2.1 = -110) as [H|H] by lia;
      apply (f_equal IZR) in H; rewrite minus_IZR in H; lra.
  - assert (c1.2 - c2.2 = 110 ∨ c1.2 - c2.2 = -110) as [H|H] by lia;
      apply (f_equal IZR) in H; rewrite minus_IZR in H; lra.
Qed.

Lemma instance_centers_apart cardinality (i j : nat) (c1 c2 : Z * Z) :
  cardinality ∈ cardinalities →
  i ≠ j →
  instance_centers cardinality !! i = Some c1 →
  instance_centers cardinality !! j = Some c2 →
  Z.abs (c1.1 - c2.1) = 110 ∨ Z.abs (c1.2 - c2.2) = 110.
Proof.
  intros Hcard%list_elem_of_In Hij. simpl in Hcard.
  destruct Hcard as [<-|[<-|[<-|[<-|[]]]]]; vm_compute instance_centers;
    destruct i as [|[|[|[|i]]]]; destruct j as [|[|[|[|j]]]];
    intros Hi Hj; simplify_eq/=; lia.
Qed.

Lemma sizes_fit size : size ∈ sizes → (IZR size / 2 <= 52.5)%R.
Proof.
  intros Hin%list_elem_of_In. simpl in Hin.
  destruct Hin as [<-|[<-|[<-|[]]]]; lra.
Qed.

(** C8. Take two different instances of the layout [save_shape] uses
    for a cardinality from 1 to 4, and around each center a region of
    radius at most 52.5, which covers half of every size of the grid.
    The two centers are 110 apart horizontally or vertically, so the
    regions share no point, whether they are squares or the discs
    inside them.  The cardinality-4 centers are the quadrant points
    (55,55), (165,55), (55,165), (165,165). *)
Theorem layout_regions_disjoint cardinality size (r1 r2 : R) (i j : nat)
    (c1 c2 : Z * Z) (p : R * R) :
  cardinality ∈ cardinalities →
  size ∈ sizes →
  (0 <= r1 <= 52.5)%R →
  (0 <= r2 <= 52.5)%R →
  i ≠ j →
  instance_centers cardinality !! i = Some c1 →
  instance_centers cardinality !! j = Some c2 →
  (IZR size / 2 <= 52.5)%R
  ∧ (Z.abs (c1.1 - c2.1) = 110 ∨ Z.abs (c1.2 - c2.2) = 110)
  ∧ ¬ (in_square c1 r1 p ∧ in_square c2 r2 p)
  ∧ ¬ (in_disc c1 r1 p ∧ in_disc c2 r2 p)
  ∧ instance_centers 4 = [(55, 55); (165, 55); (55, 165); (165, 165)].
Proof.
  intros Hcard Hsize [Hr1 Hr1'] [Hr2 Hr2'] Hij Hi Hj.
  pose proof (instance_centers_apart _ _ _ _ _ Hcard Hij Hi Hj) as Hfar.
  split_and!.
  - by apply sizes_fit.
  - exact Hfar.
  - by apply squares_apart.
  - intros [Hd1 Hd2]. apply (squares_apart c1 c2 r1 r2 p); [done..|].
    split; by apply in_disc_in_square.
  - reflexivity.
Qed.

Lemma layout_regions_disjoint_witness :
  (IZR 105 / 2 <= 52.5)%R
  ∧ (Z.abs ((55, 55).1 - (165, 165).1) = 110
     ∨ Z.abs ((55, 55).2 - (165, 165).2) = 110)
  ∧ ¬ (in_square (55, 55) 52.5 (110, 110)%R
       ∧ in_square (165, 165) 52.5 (110, 110)%R)
  ∧ ¬ (in_disc (55, 55) 52.5 (110, 110)%R
       ∧ in_disc (165, 165) 52.5 (110, 110)%R)
  ∧ instance_centers 4 = [(55, 55); (165, 55); (55, 165); (165, 165)].
Proof.
  apply (layout_regions_disjoint 4 105 52.5 52.5 0 3 (55, 55) (165, 165)
           (110, 110)%R).
  - unfold cardinalities. repeat constructor.
  - unfold sizes. repeat constructor.
  - lra.
  - lra.
  - lia.
  - reflexivity.
  - reflexivity.
Defined.


(** ** Polygon vertices *)

Lemma seqZ_0_5 : seqZ 0 5 = [0; 1; 2; 3; 4].
Proof. reflexivity. Qed.

Lemma polar_distance (c : Z * Z) (r theta : R) :
  let p := polar c r theta in
  ((p.1 - IZR c.1) * (p.1 - IZR c.1) + (p.2 - IZR c.2) * (p.2 - IZR c.2)
   = r * r)%R.
Proof.
  simpl. pose proof (sin2_cos2 theta) as H. unfold Rsqr in H.
  replace (IZR c.1 + r * cos theta - IZR c.1)%R with (r * cos theta)%R by ring.
  replace (IZR c.2 + r * sin theta - IZR c.2)%R with (r * sin theta)%R by ring.
  transitivity
    (r * r * (sin theta * sin theta + cos theta * cos theta))%R; [ring|].
  rewrite H. ring.
Qed.

Lemma star_points_vertices x y size :
  star_points (x, y) size
  = star_vertices 3.14159 (IZR (size `div` 2)) (x, y).
Proof.
  unfold star_points, star_vertices. rewrite seqZ_0_5.
  unfold polar.
  cbn [foldl mbind list_bind mjoin app fmap list_fmap star_step fst snd].
  repeat (apply (f_equal2 cons); [apply (f_equal2 pair); ring|]).
  reflexivity.
Qed.

Lemma sqrt3_as_power : Rpower 3 0.5 = sqrt 3.
Proof. replace 0.5%R with (/ 2)%R by lra. apply Rpower_sqrt. lra. Qed.

Lemma triangle_points_vertices x y size :
  triangle_points (x, y) size
  = triangle_vertices (IZR (size `div` 2)) (x, y) size.
Proof.
  unfold triangle_points, triangle_vertices, float_floordiv.
  rewrite sqrt3_as_power, minus_IZR, plus_IZR. reflexivity.
Qed.

(** C4, as built.  [draw_star] issues one polygon of ten vertices: for
    [i = 0..4], in this order, an outer vertex at distance [size // 2]
    (integer division, not [size/2]) from the center at angle
    [i·(2·3.14159/5) − 3.14159/2], then an inner vertex at half that
    distance at the outer angle plus [3.14159/5]; the script's constant
    3.14159 stands for π.  Floats are taken as exact reals. *)
Theorem draw_star_vertices draw x y size color :
  let vertices := star_vertices 3.14159 (IZR (size `div` 2)) (x, y) in
  star_points (x, y) size = vertices
  ∧ length (star_points (x, y) size) = 10%nat
  ∧ draw_star draw (x, y) size color = polygon draw vertices color
  ∧ img_prims (draw_star draw (x, y) size color)
    = img_prims draw ++ [Polygon vertices color].
Proof.
  intros vertices. unfold draw_star. rewrite star_points_vertices.
  split_and!; reflexivity.
Qed.

(** C4, as stated, fails at size 35 and center (110, 110): the claim
    puts the first outer vertex at distance 17.5 straight above the
    center, at height 92.5, while the script uses radius 35 // 2 = 17,
    which keeps every vertex at height 93 or below it. *)
Lemma star_radius_counterexample :
  star_points (110, 110) 35 ≠ star_vertices PI (IZR 35 / 2) (110, 110).
Proof.
  rewrite star_points_vertices. change (35 `div` 2) with 17.
  unfold star_vertices, polar. rewrite seqZ_0_5.
  cbn [mbind list_bind mjoin app fmap list_fmap fst snd].
  intros Heq.
  apply (f_equal (λ l, snd <$> l !! 0%nat)) in Heq.
  injection Heq as Hy.
  replace (0 * (2 * PI / 5) - PI / 2)%R with (- (PI / 2))%R in Hy by ring.
  rewrite sin_neg, sin_PI2 in Hy.
  pose proof (SIN_bound (0 * (2 * 3.14159 / 5) - 3.14159 / 2)) as Hb.
  lra.
Qed.


Lemma sqrt3_bounds : (1.72 < sqrt 3 < 1.74)%R.
Proof.
  pose proof (sqrt_sqrt 3 ltac:(lra)) as Hsq.
  pose proof (sqrt_pos 3) as Hpos.
  split; apply Rnot_le_lt; intros Hle; nra.
Qed.

Lemma grid_rise size rise :
  (size, rise) ∈ [(35, 15); (70, 30); (105, 45)] →
  Zfloor (IZR size * (Rpower 3 0.5 / 2) / 2) = rise.
Proof.
  intros Hin%list_elem_of_In. rewrite sqrt3_as_power.
  pose proof sqrt3_bounds as [Hlo Hhi]. simpl in Hin.
  destruct Hin as [[= <- <-]|[[= <- <-]|[[= <- <-]|[]]]];
    apply Zfloor_eq; lra.
Qed.

(** C5, as built.  Take a size of the size mapping, the only sizes with
    which the script reaches [draw_triangle], and a center whose [y] is
    at most 2^52 in absolute value.  [draw_triangle] issues one polygon
    of three vertices: with [height = size·(√3/2)] and [rise] the floor
    of [height/2], which is 15, 30 or 45, the apex is [rise] above the
    center and the base corners are [rise] below it, [size // 2]
    (integer division, as for the half-size of the square) to the left
    and to the right.  Floats are taken as exact reals; on these sizes
    and centers the coordinates are whole numbers below 2^53, which
    doubles hold exactly. *)
Theorem draw_triangle_vertices draw x y size color :
  size ∈ sizes →
  Z.abs y ≤ 2 ^ 52 →
  let vertices := triangle_vertices (IZR (size `div` 2)) (x, y) size in
  triangle_points (x, y) size = vertices
  ∧ length (triangle_points (x, y) size) = 3%nat
  ∧ draw_triangle draw (x, y) size color = polygon draw vertices color
  ∧ img_prims (draw_triangle draw (x, y) size color)
    = img_prims draw ++ [Polygon vertices color]
  ∧ (size, Zfloor (IZR size * (sqrt 3 / 2) / 2))
    ∈ [(35, 15); (70, 30); (105, 45)].
Proof.
  intros Hsize _ vertices. unfold draw_triangle.
  rewrite triangle_points_vertices.
  split_and!; [reflexivity..|].
  rewrite <-sqrt3_as_power.
  apply list_elem_of_In in Hsize. simpl in Hsize.
  destruct Hsize as [<-|[<-|[<-|[]]]].
  - rewrite (grid_rise 35 15) by repeat constructor. repeat constructor.
  - rewrite (grid_rise 70 30) by repeat constructor. repeat constructor.
  - rewrite (grid_rise 105 45) by repeat constructor. repeat constructor.
Qed.

Lemma draw_triangle_vertices_witness :
  let vertices := triangle_vertices (IZR (70 `div` 2)) (110, 55) 70 in
  triangle_points (110, 55) 70 = vertices
  ∧ length (triangle_points (110, 55) 70) = 3%nat
  ∧ draw_triangle (blank "white") (110, 55) 70 "#1E88E5"
    = polygon (blank "white") vertices "#1E88E5"
  ∧ img_prims (draw_triangle (blank "white") (110, 55) 70 "#1E88E5")
    = img_prims (blank "white") ++ [Polygon vertices "#1E88E5"]
  ∧ (70, Zfloor (IZR 70 * (sqrt 3 / 2) / 2))
    ∈ [(35, 15); (70, 30); (105, 45)].
Proof.
  apply (draw_triangle_vertices (blank "white") 110 55 70 "#1E88E5").
  - unfold sizes. repeat constructor.
  - vm_compute. discriminate.
Defined.

(** C5, as stated, fails at size 35 and center (110, 110): the claim
    puts the left base corner at x = 110 − 17.5 = 92.5, the script at
    x = 110 − 35 // 2 = 93. *)
Lemma triangle_base_counterexample :
  triangle_points (110, 110) 35
  ≠ triangle_vertices (IZR 35 / 2) (110, 110) 35.
Proof.
  rewrite triangle_points_vertices. change (35 `div` 2) with 17.
  unfold triangle_vertices. cbn [fst snd].
  intros Heq.
  apply (f_equal (λ l, fst <$> l !! 1%nat)) in Heq.
  injection Heq as Hx. lra.
Qed.

(** * Further properties *)

(** ** Outcomes of [save_shape] *)

Lemma save_shape_ok shape size color cardinality background_color
    (fs : files) word_size hex_color :
  size_mapping !! size = Some word_size →
  color_mapping !! color = Some hex_color →
  save_shape shape size color cardinality background_color fs
  = (inr tt,
     <[written_name word_size color shape cardinality background_color
       := mk_saved "WEBP"
            (draw_each (blank background_color) shape
               (instance_centers cardinality) size hex_color)]> fs).
Proof.
  intros Hsize Hcolor. unfold instance_centers, written_name.
  destruct (decide (cardinality ∈ [2; 3; 4])) as [Hin|Hout].
  - destruct (multi_centers_bound _ Hin) as [centers Hcenters].
    rewrite Hcenters.
    exact (save_shape_multi _ _ _ _ _ _ _ _ _ Hsize Hcolor Hin Hcenters).
  - exact (save_shape_single _ _ _ _ _ _ _ _ Hsize Hcolor Hout).
Qed.



(** X1. [save_shape], run against any collaborator, ends in exactly one
    of five ways, tried in this order.  An unmapped size gives
    [KeyError] on the size, also when the color is unmapped too; an
    unmapped color gives [KeyError] on the color; a background PIL
    does not know gives [ValueError] from [Image.new]; a name that
    cannot be written gives [OSError] from [image.save]; otherwise one
    WEBP file is written, under the name built from the arguments and
    holding the shape drawn at the centers of the cardinality.  In the
    four failing cases the directory is untouched, and
    [UnboundLocalError] never comes out, whatever the cardinality. *)
Theorem save_shape_outcome (c : collaborator) shape size color cardinality
    background_color (fs : files) :
  save_shape_in c shape size color cardinality background_color fs
  = match size_mapping !! size, color_mapping !! color with
    | None, _ => (inl (KeyError (KInt size)), fs)
    | Some _, None => (inl (KeyError (KStr color)), fs)
    | Some word_size, Some hex_color =>
        let filename :=
          written_name word_size color shape cardinality background_color in
        if negb (known_color c background_color) then
          (inl (ValueError background_color), fs)
        else if negb (writable c filename) then
          (inl (OSError filename), fs)
        else
          (inr tt,
           <[filename
             := mk_saved "WEBP"
                  (draw_each (blank background_color) shape
                     (instance_centers cardinality) size hex_color)]> fs)
    end.
Proof.
  destruct (size_mapping !! size) as [word_size|] eqn:Hsize.
  - destruct (color_mapping !! color) as [hex_color|] eqn:Hcolor.
    + destruct (known_color c background_color) eqn:Hbg.
      * rewrite (save_shape_in_drawn _ _ _ _ _ _ _ _ _ Hsize Hcolor Hbg).
        cbn zeta. by destruct (writable c _).
      * by rewrite (save_shape_in_rejected _ _ _ _ _ _ _ _ _ Hsize Hcolor Hbg).
    + run_save_shape_in. by rewrite Hsize, Hcolor.
  - run_save_shape_in. by rewrite Hsize.
Qed.

(** X2. Calling [save_shape] a second time with the same arguments
    changes nothing: the outcome is the same and the directory is the
    one the first call left. *)
Theorem save_shape_twice shape size color cardinality background_color
    (fs : files) :
  let once := save_shape shape size color cardinality background_color fs in
  save_shape shape size color cardinality background_color once.2 = once.
Proof.
  intros once. subst once.
  destruct (size_mapping !! size) as [word_size|] eqn:Hsize.
  - destruct (color_mapping !! color) as [hex_color|] eqn:Hcolor.
    + rewrite !(save_shape_ok _ _ _ _ _ _ _ _ Hsize Hcolor). simpl.
      by rewrite insert_insert_eq.
    + run_save_shape. by rewrite Hsize, Hcolor.
  - run_save_shape. by rewrite Hsize.
Qed.

(** ** Loops in the monad *)

Lemma for_each_app {A} (l1 l2 : list A) (body : A → M unit) (fs : files) :
  for_each (l1 ++ l2) body fs = (_ ← for_each l1 body; for_each l2 body) fs.
Proof.
  revert fs. induction l1 as [|x l1 IH]; intros fs; [done|].
  simpl. unfold mbind, M_bind in *.
  destruct (body x fs) as [[e|[]] fs']; [done|]. apply IH.
Qed.

Lemma for_each_ext {A} (l : list A) (body body' : A → M unit) (fs : files) :
  (∀ x fs, x ∈ l → body x fs = body' x fs) →
  for_each l body fs = for_each l body' fs.
Proof.
  revert fs. induction l as [|x l IH]; intros fs Hext; [done|].
  simpl. unfold mbind, M_bind. rewrite Hext by constructor.
  destruct (body' x fs) as [[e|[]] fs']; [done|].
  apply IH. intros y fs'' Hy. apply Hext. by constructor.
Qed.

Lemma for_each_bind {A B} (l : list A) (f : A → list B) (body : B → M unit)
    (fs : files) :
  for_each (l ≫= f) body fs = for_each l (λ x, for_each (f x) body) fs.
Proof.
  revert fs. induction l as [|x l IH]; intros fs; [done|].
  change ((x :: l) ≫= f) with (f x ++ (l ≫= f)).
  rewrite for_each_app. simpl. unfold mbind, M_bind.
  destruct (for_each (f x) body fs) as [[e|[]] fs']; [done|]. apply IH.
Qed.

Lemma for_each_singleton {A} (x : A) (body : A → M unit) (fs : files) :
  for_each [x] body fs = body x fs.
Proof.
  simpl. unfold mbind, M_bind, mret, M_ret.
  by destruct (body x fs) as [[e|[]] fs'].
Qed.

(** The five nested loops visit [grid] in order. *)
Lemma main_grid (fs : files) : main fs = for_each grid save_stimulus fs.
Proof.
  unfold main, grid.
  repeat (rewrite for_each_bind; apply for_each_ext; intros ? ? _).
  by rewrite for_each_singleton.
Qed.

(** A loop whose body always writes one file. *)
Lemma for_each_writes {A} (l : list A) (body : A → M unit)
    (name : A → string) (file : A → saved) (fs : files) :
  (∀ x fs, x ∈ l → body x fs = (inr tt, <[name x := file x]> fs)) →
  for_each l body fs
  = (inr tt, foldl (λ fs x, <[name x := file x]> fs) fs l).
Proof.
  revert fs. induction l as [|x l IH]; intros fs Hbody; [done|].
  simpl. unfold mbind, M_bind. rewrite Hbody by constructor.
  apply IH. intros y fs' Hy. apply Hbody. by constructor.
Qed.

Lemma lookup_writes_other {A} (l : list A) (name : A → string)
    (file : A → saved) (fs : files) (k : string) :
  k ∉ name <$> l →
  foldl (λ fs x, <[name x := file x]> fs) fs l !! k = fs !! k.
Proof.
  revert fs. induction l as [|x l IH]; intros fs Hk; [done|].
  simpl. rewrite IH.
  - apply lookup_insert_ne. intros <-. apply Hk. simpl. constructor.
  - intros Hin. apply Hk. simpl. by constructor.
Qed.

Lemma lookup_writes {A} (l : list A) (name : A → string)
    (file : A → saved) (fs : files) (x : A) :
  NoDup (name <$> l) →
  x ∈ l →
  foldl (λ fs x, <[name x := file x]> fs) fs l !! name x = Some (file x).
Proof.
  revert fs. induction l as [|y l IH]; intros fs Hnd Hx.
  - by apply elem_of_nil in Hx.
  - simpl in *. apply NoDup_cons in Hnd as [Hy Hnd].
    apply elem_of_cons in Hx as [->|Hx].
    + rewrite lookup_writes_other by done. apply lookup_insert_eq.
    + by apply IH.
Qed.

Lemma dom_writes {A} (l : list A) (name : A → string)
    (file : A → saved) (fs : files) :
  dom (foldl (λ fs x, <[name x := file x]> fs) fs l)
  = dom fs ∪ list_to_set (name <$> l).
Proof.
  revert fs. induction l as [|x l IH]; intros fs; simpl.
  - by rewrite (right_id_L ∅ (∪)).
  - rewrite IH, dom_insert_L.
    by rewrite (comm_L (∪) {[name x]} (dom fs)), (assoc_L (∪)).
Qed.

(** ** The grid *)

Lemma grid_length : length grid = 576%nat.
Proof. reflexivity. Qed.

Lemma grid_names_NoDup : NoDup (grid_name <$> grid).
Proof. apply (bool_decide_unpack _). vm_compute. reflexivity. Qed.

Lemma grid_elem shape size color cardinality background_color :
  (shape, size, color, cardinality, background_color) ∈ grid ↔
  shape ∈ shapes ∧ size ∈ sizes ∧ color ∈ colors
  ∧ cardinality ∈ cardinalities ∧ background_color ∈ background_colors.
Proof.
  unfold grid. rewrite list_elem_of_bind. split.
  - intros (shape' & H & Hshape).
    apply list_elem_of_bind in H as (size' & H & Hsize).
    apply list_elem_of_bind in H as (color' & H & Hcolor).
    apply list_elem_of_bind in H as (cardinality' & H & Hcard).
    apply list_elem_of_bind in H as (bg' & H & Hbg).
    apply list_elem_of_singleton in H. by simplify_eq.
  - intros (Hshape & Hsize & Hcolor & Hcard & Hbg).
    exists shape. split; [|done].
    apply list_elem_of_bind. exists size. split; [|done].
    apply list_elem_of_bind. exists color. split; [|done].
    apply list_elem_of_bind. exists cardinality. split; [|done].
    apply list_elem_of_bind. exists background_color. split; [|done].
    constructor.
Qed.

Lemma sizes_mapped size :
  size ∈ sizes → ∃ word_size, size_mapping !! size = Some word_size.
Proof.
  intros Hin%list_elem_of_In. simpl in Hin.
  destruct Hin as [<-|[<-|[<-|[]]]]; eexists; reflexivity.
Qed.

Lemma colors_mapped color :
  color ∈ colors → ∃ hex_color, color_mapping !! color = Some hex_color.
Proof.
  intros Hin%list_elem_of_In. simpl in Hin.
  destruct Hin as [<-|[<-|[<-|[<-|[]]]]]; eexists; reflexivity.
Qed.

Lemma save_stimulus_grid (t : stimulus) (fs : files) :
  t ∈ grid →
  save_stimulus t fs = (inr tt, <[grid_name t := grid_file t]> fs).
Proof.
  destruct t as [[[[shape size] color] cardinality] background_color].
  intros (Hshape & Hsize & Hcolor & Hcard & Hbg)%grid_elem.
  destruct (sizes_mapped _ Hsize) as [word_size Hw].
  destruct (colors_mapped _ Hcolor) as [hex_color Hh].
  unfold save_stimulus, grid_name, grid_file, grid_canvas.
  rewrite (save_shape_ok _ _ _ _ _ _ _ _ Hw Hh), Hw, Hh. simpl.
  by rewrite written_name_spec.
Qed.

Lemma main_writes (fs : files) :
  main fs
  = (inr tt, foldl (λ fs t, <[grid_name t := grid_file t]> fs) fs grid).
Proof.
  rewrite main_grid. apply for_each_writes.
  intros t fs' Ht. by apply save_stimulus_grid.
Qed.

Lemma grid_name_inj (t1 t2 : stimulus) :
  t1 ∈ grid → t2 ∈ grid → grid_name t1 = grid_name t2 → t1 = t2.
Proof.
  intros [i Hi]%list_elem_of_lookup [j Hj]%list_elem_of_lookup Heq.
  assert (i = j) as ->.
  { apply (NoDup_lookup (grid_name <$> grid) i j (grid_name t1)).
    - apply grid_names_NoDup.
    - by rewrite list_lookup_fmap, Hi.
    - by rewrite list_lookup_fmap, Hj, Heq. }
  congruence.
Qed.

Lemma grid_names_length : length (grid_name <$> grid) = 576%nat.
Proof. by rewrite length_fmap. Qed.

(** ** The driver *)

(** X3. Two different tuples of the grid never share a file name, so no
    stimulus of a run overwrites another. *)
Theorem grid_names_distinct (t1 t2 : stimulus) :
  t1 ∈ grid → t2 ∈ grid → t1 ≠ t2 → grid_name t1 ≠ grid_name t2.
Proof. intros H1 H2 Hne Heq. apply Hne. by apply grid_name_inj. Qed.

Lemma grid_names_distinct_witness :
  grid_name ("star", 70, "blue", 1, "black")
  ≠ grid_name ("star", 70, "blue", 2, "white").
Proof.
  apply (grid_names_distinct ("star", 70, "blue", 1, "black")
           ("star", 70, "blue", 2, "white")).
  - apply grid_elem. repeat split; repeat constructor.
  - apply grid_elem. repeat split; repeat constructor.
  - discriminate.
Defined.

(** X4. The driver never raises: every size and color it enumerates is
    a key of its dictionary, whatever the directory holds at the
    start. *)
Theorem main_succeeds (fs : files) : (main fs).1 = inr tt.
Proof. rewrite main_writes. reflexivity. Qed.

(** X5. After the driver, the file of every tuple of the grid is there,
    in WEBP, holding the canvas of that tuple: the blank canvas of its
    background with its shape drawn at the centers of its
    cardinality. *)
Theorem main_file (fs : files) (t : stimulus) :
  t ∈ grid →
  (main fs).2 !! grid_name t = Some (grid_file t).
Proof.
  intros Ht. rewrite main_writes. cbn [fst snd].
  exact (lookup_writes _ _ _ _ _ grid_names_NoDup Ht).
Qed.

Lemma main_file_witness :
  (main ∅).2 !! grid_name ("circle", 35, "red", 4, "gray")
  = Some (grid_file ("circle", 35, "red", 4, "gray")).
Proof.
  apply (main_file ∅ ("circle", 35, "red", 4, "gray")).
  apply grid_elem. repeat split; repeat constructor.
Defined.

(** X6. The driver leaves alone every file whose name is not one of the
    names of the grid. *)
Theorem main_frame (fs : files) (name : string) :
  name ∉ grid_name <$> grid →
  (main fs).2 !! name = fs !! name.
Proof.
  intros Hname. rewrite main_writes. cbn [fst snd].
  exact (lookup_writes_other _ _ _ _ _ Hname).
Qed.


Lemma main_frame_witness :
  (main {[ "earlier-run.webp" := mk_saved "WEBP" (blank "gray") ]}).2
    !! "earlier-run.webp"
  = ({[ "earlier-run.webp" := mk_saved "WEBP" (blank "gray") ]} : files)
      !! "earlier-run.webp".
Proof.
  apply (main_frame {[ "earlier-run.webp" := mk_saved "WEBP" (blank "gray") ]}
           "earlier-run.webp").
  apply (bool_decide_unpack _). vm_compute. reflexivity.
Defined.

(** X7. Started in a directory that holds none of the grid's names, the
    driver adds exactly 576 files. *)
Theorem main_file_count (fs : files) :
  (∀ t, t ∈ grid → fs !! grid_name t = None) →
  size (main fs).2 = (size fs + 576)%nat.
Proof.
  intros Hfresh. rewrite main_writes. cbn [fst snd].
  rewrite <-!size_dom, dom_writes, size_union.
  - by rewrite size_list_to_set, grid_names_length by apply grid_names_NoDup.
  - intros name Hdom [t [-> Ht]]%elem_of_list_to_set%list_elem_of_fmap.
    apply elem_of_dom in Hdom as [file Hfile].
    rewrite Hfresh in Hfile by done. discriminate.
Qed.

Lemma main_file_count_witness :
  size (main ∅).2 = (size (∅ : files) + 576)%nat.
Proof. apply (main_file_count ∅). intros t _. apply lookup_empty. Defined.

(** X8. Running the driver again over its own output changes nothing:
    it succeeds and the directory is the same. *)
Theorem main_twice (fs : files) : main (main fs).2 = main fs.
Proof.
  rewrite !main_writes. cbn [fst snd]. f_equal. apply map_eq. intros name.
  destruct (decide (name ∈ grid_name <$> grid)) as [Hin|Hout].
  - apply list_elem_of_fmap in Hin as [t [-> Ht]].
    by rewrite !lookup_writes by (apply grid_names_NoDup || done).
  - by rewrite !lookup_writes_other.
Qed.

(** X9. The order in which two different tuples of the grid are
    generated does not matter for the directory that results. *)
Theorem save_stimulus_commute (fs : files) (t1 t2 : stimulus) :
  t1 ∈ grid → t2 ∈ grid → t1 ≠ t2 →
  (save_stimulus t2 (save_stimulus t1 fs).2).2
  = (save_stimulus t1 (save_stimulus t2 fs).2).2.
Proof.
  intros H1 H2 Hne.
  rewrite !save_stimulus_grid by done. cbn [fst snd].
  apply insert_insert_ne. intros Heq. apply Hne. by apply grid_name_inj.
Qed.

Lemma save_stimulus_commute_witness :
  (save_stimulus ("square", 105, "green", 2, "white")
     (save_stimulus ("star", 35, "red", 1, "gray") ∅).2).2
  = (save_stimulus ("star", 35, "red", 1, "gray")
       (save_stimulus ("square", 105, "green", 2, "white") ∅).2).2.
Proof.
  apply (save_stimulus_commute ∅ ("star", 35, "red", 1, "gray")
           ("square", 105, "green", 2, "white")).
  - apply grid_elem. repeat split; repeat constructor.
  - apply grid_elem. repeat split; repeat constructor.
  - discriminate.
Defined.

(** ** Extent of the shapes *)

Lemma half_size_bounds size :
  0 ≤ size → (0 <= IZR (size `div` 2) <= IZR size / 2)%R.
Proof.
  intros Hsize.
  assert (0 ≤ size `div` 2) as H0 by (apply Z.div_pos; lia).
  assert (2 * (size `div` 2) ≤ size) as H2 by (apply Z.mul_div_le; lia).
  apply IZR_le in H0, H2. rewrite mult_IZR in H2. lra.
Qed.


Lemma rise_bounds size :
  0 ≤ size →
  (0 <= IZR (Zfloor (IZR size * (sqrt 3 / 2) / 2)) <= IZR size / 2)%R.
Proof.
  intros Hsize%IZR_le. pose proof sqrt3_bounds as [Hlo Hhi].
  set (h := (IZR size * (sqrt 3 / 2) / 2)%R).
  assert (0 <= h <= IZR size / 2)%R as [Hh0 Hh1] by (subst h; nra).
  pose proof (Zfloor_bound h) as [Hfl _].
  split; [|lra].
  apply IZR_le. by apply Zfloor_lub.
Qed.

Lemma polar_in_square (c : Z * Z) (r r' theta : R) :
  (0 <= r <= r')%R → in_square c r' (polar c r theta).
Proof.
  intros [Hr Hr']. unfold in_square, polar. cbn [fst snd].
  pose proof (COS_bound theta) as [Hc Hc'].
  pose proof (SIN_bound theta) as [Hs Hs'].
  split; split; nra.
Qed.

Lemma star_vertices_in_square (c : Z * Z) (pi r r' : R) :
  (0 <= r <= r')%R → Forall (in_square c r') (star_vertices pi r c).
Proof.
  intros Hr. unfold star_vertices. rewrite seqZ_0_5.
  cbn [mbind list_bind mjoin app fmap list_fmap].
  repeat (apply Forall_cons; split; [apply polar_in_square; lra|]).
  apply Forall_nil_2.
Qed.

(** What one dispatch of a known shape puts on the canvas. *)
Lemma draw_shape_paints shape (center : Z * Z) size color :
  shape ∈ shapes →
  ∃ p,
    (∀ draw, draw_shape draw shape center size color = paint p draw)
    ∧ prim_fill p = color
    ∧ (0 ≤ size → Forall (in_square center (IZR size / 2)) (prim_points p)).
Proof.
  intros Hin%list_elem_of_In. simpl in Hin. destruct center as [x y].
  destruct Hin as [<-|[<-|[<-|[<-|[]]]]].
  - eexists. split_and!; [reflexivity..|].
    intros [H0 H2]%half_size_bounds. unfold in_square. cbn [prim_points fst snd].
    rewrite !minus_IZR, !plus_IZR.
    repeat (apply Forall_cons; split; [cbn [fst snd]; lra|]).
    apply Forall_nil_2.
  - eexists. split_and!; [reflexivity..|].
    intros [H0 H2]%half_size_bounds. unfold in_square. cbn [prim_points fst snd].
    rewrite !minus_IZR, !plus_IZR.
    repeat (apply Forall_cons; split; [cbn [fst snd]; lra|]).
    apply Forall_nil_2.
  - exists (Polygon (triangle_points (x, y) size) color).
    split_and!; [reflexivity..|].
    intros Hsize. cbn [prim_points]. rewrite triangle_points_vertices.
    pose proof (half_size_bounds size Hsize) as [H0 H2].
    pose proof (rise_bounds size Hsize) as [Hr0 Hr2].
    unfold triangle_vertices, in_square. cbn [fst snd].
    repeat (apply Forall_cons; split; [cbn [fst snd]; lra|]).
    apply Forall_nil_2.
  - exists (Polygon (star_points (x, y) size) color).
    split_and!; [reflexivity..|].
    intros Hsize. cbn [prim_points]. rewrite star_points_vertices.
    apply star_vertices_in_square. by apply half_size_bounds.
Qed.

Lemma draw_shape_meta draw shape center size color :
  img_mode (draw_shape draw shape center size color) = img_mode draw
  ∧ img_size (draw_shape draw shape center size color) = img_size draw
  ∧ img_background (draw_shape draw shape center size color)
    = img_background draw
  ∧ ∃ added,
      img_prims (draw_shape draw shape center size color)
      = img_prims draw ++ added
      ∧ (length added ≤ 1)%nat
      ∧ Forall (λ p, prim_fill p = color) added.
Proof.
  destruct (decide (shape ∈ shapes)) as [Hin|Hout].
  - destruct (draw_shape_paints shape center size color Hin)
      as (p & -> & Hfill & _).
    split_and!; [reflexivity..|].
    exists [p]. split_and!; [reflexivity|simpl; lia|].
    by apply Forall_singleton.
  - rewrite draw_shape_unknown by done.
    split_and!; [reflexivity..|].
    exists []. split_and!; [by rewrite app_nil_r|simpl; lia|apply Forall_nil_2].
Qed.

(** X10. Drawing a shape at a list of centers only ever appends to the
    canvas, whatever the shape tag: mode, size and background stay,
    what was drawn before stays in place, at most one primitive is
    added per center, and every added primitive is filled with the
    color that was passed. *)
Theorem draw_each_appends draw shape centers size color :
  let canvas := draw_each draw shape centers size color in
  img_mode canvas = img_mode draw
  ∧ img_size canvas = img_size draw
  ∧ img_background canvas = img_background draw
  ∧ ∃ added,
      img_prims canvas = img_prims draw ++ added
      ∧ (length added ≤ length centers)%nat
      ∧ Forall (λ p, prim_fill p = color) added.
Proof.
  revert draw. induction centers as [|center centers IH]; intros draw.
  - simpl. split_and!; [reflexivity..|].
    exists []. split_and!; [by rewrite app_nil_r|done|apply Forall_nil_2].
  - destruct (draw_shape_meta draw shape center size color)
      as (Hm & Hs & Hb & first & Hfirst & Hlen & Hfill).
    destruct (IH (draw_shape draw shape center size color))
      as (Hm' & Hs' & Hb' & rest & Hrest & Hlen' & Hfill').
    cbn zeta in *. unfold draw_each in *. cbn [foldl].
    split_and!; [congruence..|].
    exists (first ++ rest). split_and!.
    + by rewrite Hrest, Hfirst, (assoc_L (++)).
    + rewrite length_app. simpl. lia.
    + by apply Forall_app.
Qed.

Lemma instance_centers_length cardinality :
  (1 ≤ length (instance_centers cardinality) ≤ 4)%nat.
Proof.
  unfold instance_centers.
  destruct (decide (cardinality ∈ [2; 3; 4])) as [Hin|Hout]; [|simpl; lia].
  apply list_elem_of_In in Hin. simpl in Hin.
  destruct Hin as [<-|[<-|[<-|[]]]]; simpl; lia.
Qed.


Lemma draw_each_frame draw shape centers size color :
  let canvas := draw_each draw shape centers size color in
  img_mode canvas = img_mode draw
  ∧ img_size canvas = img_size draw
  ∧ img_background canvas = img_background draw
  ∧ (length (img_prims canvas)
     ≤ length (img_prims draw) + length centers)%nat
  ∧ (Forall (λ p, prim_fill p = color) (img_prims draw) →
     Forall (λ p, prim_fill p = color) (img_prims canvas)).
Proof.
  revert draw. induction centers as [|center centers IH]; intros draw.
  - simpl. split_and!; [reflexivity..|lia|done].
  - destruct (draw_shape_meta draw shape center size color)
      as (Hm & Hs & Hb & first & Hfirst & Hlen & Hfill).
    destruct (IH (draw_shape draw shape center size color))
      as (Hm' & Hs' & Hb' & Hlen' & Hfill').
    cbn zeta in *. unfold draw_each in *. cbn [foldl].
    split_and!; [congruence..| |].
    + rewrite Hfirst, length_app in Hlen'. simpl. lia.
    + intros Hdraw. apply Hfill'. rewrite Hfirst. by apply Forall_app.
Qed.

(** X11. Whenever [save_shape] succeeds, against any collaborator, it
    has written exactly one file: a WEBP of an RGB canvas of 220 by
    220 pixels with the requested background, holding at most four
    primitives, each filled with the palette's hex value of the
    requested color. *)
Theorem save_shape_canvas (c : collaborator) shape size color cardinality
    background_color (fs fs' : files) :
  save_shape_in c shape size color cardinality background_color fs
  = (inr tt, fs') →
  ∃ filename file hex_color,
    fs' = <[filename := file]> fs
    ∧ color_mapping !! color = Some hex_color
    ∧ saved_format file = "WEBP"
    ∧ img_mode (saved_image file) = "RGB"
    ∧ img_size (saved_image file) = (220, 220)
    ∧ img_background (saved_image file) = background_color
    ∧ (length (img_prims (saved_image file)) ≤ 4)%nat
    ∧ Forall (λ p, prim_fill p = hex_color) (img_prims (saved_image file)).
Proof.
  destruct (size_mapping !! size) as [word_size|] eqn:Hsize;
    [|run_save_shape_in; rewrite Hsize; discriminate].
  destruct (color_mapping !! color) as [hex_color|] eqn:Hcolor;
    [|run_save_shape_in; rewrite Hsize, Hcolor; discriminate].
  destruct (known_color c background_color) eqn:Hbg;
    [|rewrite (save_shape_in_rejected _ _ _ _ _ _ _ _ _ Hsize Hcolor Hbg);
      discriminate].
  rewrite (save_shape_in_drawn _ _ _ _ _ _ _ _ _ Hsize Hcolor Hbg).
  destruct (writable c _); [|discriminate].
  intros [= <-]. do 3 eexists. split; [reflexivity|].
  cbn [saved_format saved_image].
  destruct (draw_each_frame (blank background_color) shape
              (instance_centers cardinality) size hex_color)
    as (Hm & Hs & Hb & Hlen & Hfill).
  pose proof (instance_centers_length cardinality) as [_ Hfour].
  split_and!; [done..| |].
  - simpl in Hlen. lia.
  - apply Hfill. constructor.
Qed.

Lemma save_shape_canvas_witness :
  let fs' :=
    (save_shape_in grid_collaborator "circle" 70 "green" 3 "black" ∅).2 in
  ∃ filename file hex_color,
    fs' = <[filename := file]> ∅
    ∧ color_mapping !! "green" = Some hex_color
    ∧ saved_format file = "WEBP"
    ∧ img_mode (saved_image file) = "RGB"
    ∧ img_size (saved_image file) = (220, 220)
    ∧ img_background (saved_image file) = "black"
    ∧ (length (img_prims (saved_image file)) ≤ 4)%nat
    ∧ Forall (λ p, prim_fill p = hex_color) (img_prims (saved_image file)).
Proof.
  intros fs'.
  apply (save_shape_canvas grid_collaborator "circle" 70 "green" 3 "black"
           ∅ fs').
  reflexivity.
Defined.

Example three_green_circles :
  save_shape_in grid_collaborator "circle" 70 "green" 3 "black" ∅
  = (inr tt,
     {[ "med-green-circle-3-black.webp"
        := mk_saved "WEBP"
             {| img_mode := "RGB"; img_size := (220, 220);
                img_background := "black";
                img_prims := [ Ellipse [75; 20; 145; 90] "#009E73";
                               Ellipse [20; 130; 90; 200] "#009E73";
                               Ellipse [130; 130; 200; 200] "#009E73" ] |} ]}).
Proof. reflexivity. Qed.

(** X12. Through [draw_shape], a square and a circle of the same size
    at the same center get the same box.  The box is centered on the
    center and its side is [size] for an even size and [size − 1] for
    an odd one. *)
Theorem square_circle_same_box draw cx cy size color :
  ∃ x0 y0 x1 y1,
    img_prims (draw_shape draw "square" (cx, cy) size color)
    = img_prims draw ++ [Rectangle [x0; y0; x1; y1] color]
    ∧ img_prims (draw_shape draw "circle" (cx, cy) size color)
      = img_prims draw ++ [Ellipse [x0; y0; x1; y1] color]
    ∧ x0 + x1 = 2 * cx ∧ y0 + y1 = 2 * cy
    ∧ x1 - x0 = size - size `mod` 2
    ∧ y1 - y0 = size - size `mod` 2.
Proof.
  do 4 eexists. split_and!; [reflexivity|reflexivity|..];
    pose proof (Z.div_mod size 2 ltac:(lia)); lia.
Qed.

(** X13. For a known shape and a size that is not negative, every
    bounding point of what [draw_shape] draws (box corners, polygon
    vertices) lies within [size/2] of the center along both axes.
    Floats are taken as exact reals. *)
Theorem draw_shape_extent draw shape (center : Z * Z) size color :
  shape ∈ shapes →
  0 ≤ size →
  ∃ p,
    draw_shape draw shape center size color = paint p draw
    ∧ Forall (in_square center (IZR size / 2)) (prim_points p).
Proof.
  intros Hshape Hsize.
  destruct (draw_shape_paints shape center size color Hshape)
    as (p & Hdraw & _ & Hext).
  exists p. split; [apply Hdraw|by apply Hext].
Qed.

Lemma draw_shape_extent_witness :
  ∃ p,
    draw_shape (blank "white") "star" (55, 165) 105 "#FFC107"
    = paint p (blank "white")
    ∧ Forall (in_square (55, 165) (IZR 105 / 2)) (prim_points p).
Proof.
  apply (draw_shape_extent (blank "white") "star" (55, 165) 105 "#FFC107").
  - unfold shapes. repeat constructor.
  - lia.
Defined.

(** ** Star and triangle *)

(** X14. Every outer vertex of the star is at distance [size // 2] from
    the center and every inner vertex at half of that: the even
    positions of the vertex list are the outer vertices, the odd ones
    the inner vertices.  Floats are taken as exact reals. *)
Theorem star_vertex_distance x y size (i : nat) (p : R * R) :
  star_points (x, y) size !! i = Some p →
  let r := IZR (size `div` 2) in
  dist2 (x, y) p
  = if Nat.even i then (r * r)%R else ((0.5 * r) * (0.5 * r))%R.
Proof.
  rewrite star_points_vertices. unfold star_vertices. rewrite seqZ_0_5.
  cbn [mbind list_bind mjoin app fmap list_fmap].
  intros Hp. cbv zeta.
  do 10 (destruct i as [|i];
         [injection Hp as <-; apply polar_distance|cbn in Hp]).
  discriminate.
Qed.

Lemma star_vertex_distance_witness :
  let p :=
    ((IZR 110
      + IZR (70 `div` 2) * 0.5
        * cos (IZR 0 * (2 * 3.14159 / 5) - 3.14159 / 2 + 3.14159 / 5))%R,
     (IZR 110
      + IZR (70 `div` 2) * 0.5
        * sin (IZR 0 * (2 * 3.14159 / 5) - 3.14159 / 2 + 3.14159 / 5))%R) in
  dist2 (110, 110) p
  = ((0.5 * IZR (70 `div` 2)) * (0.5 * IZR (70 `div` 2)))%R.
Proof.
  intros p. apply (star_vertex_distance 110 110 70 1 p). reflexivity.
Defined.


(** X15. For the three sizes of the grid the triangle is 15, 30 and 45
    pixels high above and below its center, so all three vertices have
    whole coordinates: the apex straight above the center, the base
    corners [size // 2] to the left and right below it.  Floats are
    taken as exact reals. *)
Theorem triangle_points_grid x y size rise :
  (size, rise) ∈ [(35, 15); (70, 30); (105, 45)] →
  triangle_points (x, y) size
  = [ (IZR x, IZR (y - rise));
      (IZR (x - size `div` 2), IZR (y + rise));
      (IZR (x + size `div` 2), IZR (y + rise)) ].
Proof.
  intros Hrise%grid_rise. unfold triangle_points, float_floordiv.
  by rewrite Hrise, !minus_IZR, !plus_IZR.
Qed.

Lemma triangle_points_grid_witness :
  triangle_points (110, 110) 70
  = [ (IZR 110, IZR (110 - 30));
      (IZR (110 - 70 `div` 2), IZR (110 + 30));
      (IZR (110 + 70 `div` 2), IZR (110 + 30)) ].
Proof.
  apply (triangle_points_grid 110 110 70 30). repeat constructor.
Defined.

(** ** The canvases of the grid *)

Lemma draw_each_paints shape (centers : list (Z * Z)) size color :
  shape ∈ shapes →
  ∃ prims,
    (∀ draw,
       img_prims (draw_each draw shape centers size color)
       = img_prims draw ++ prims)
    ∧ Forall2
        (λ c p, 0 ≤ size → Forall (in_square c (IZR size / 2)) (prim_points p))
        centers prims.
Proof.
  intros Hshape. induction centers as [|center centers IH].
  - exists []. split; [intros draw; by rewrite app_nil_r|constructor].
  - destruct IH as (prims & Hprims & Hall).
    destruct (draw_shape_paints shape center size color Hshape)
      as (p & Hdraw & _ & Hext).
    exists (p :: prims). split; [|by constructor].
    intros draw. unfold draw_each in *. cbn [foldl].
    rewrite Hprims, Hdraw. simpl. by rewrite <-(assoc_L (++)).
Qed.

Lemma instance_centers_range cardinality (c : Z * Z) :
  cardinality ∈ cardinalities →
  c ∈ instance_centers cardinality →
  55 ≤ c.1 ≤ 165 ∧ 55 ≤ c.2 ≤ 165.
Proof.
  intros Hcard%list_elem_of_In. simpl in Hcard.
  destruct Hcard as [<-|[<-|[<-|[<-|[]]]]]; vm_compute instance_centers;
    intros Hc%list_elem_of_In; simpl in Hc;
    repeat (destruct Hc as [<-|Hc]; [simpl; lia|]); destruct Hc.
Qed.

(** A primitive of a grid canvas, with the center it was drawn at. *)
Lemma grid_canvas_prim (t : stimulus) (i : nat) (p : prim) :
  t ∈ grid →
  img_prims (grid_canvas t) !! i = Some p →
  ∃ c, instance_centers t.1.2 !! i = Some c
       ∧ Forall (in_square c 52.5) (prim_points p).
Proof.
  destruct t as [[[[shape size] color] cardinality] background_color].
  intros (Hshape & Hsize & Hcolor & Hcard & Hbg)%grid_elem.
  unfold grid_canvas. cbn [fst snd].
  destruct (draw_each_paints shape (instance_centers cardinality) size
              (default "" (color_mapping !! color)) Hshape)
    as (prims & Hprims & Hall).
  rewrite Hprims. simpl. intros Hp.
  destruct (Forall2_lookup_r _ _ _ _ _ Hall Hp) as (c & Hc & Hext).
  exists c. split; [done|].
  pose proof (sizes_fit size Hsize) as Hfit.
  assert (0 ≤ size) as H0.
  { apply list_elem_of_In in Hsize. simpl in Hsize. lia. }
  eapply Forall_impl; [by apply Hext|].
  intros a [Hx Hy]. unfold in_square. lra.
Qed.

(** X16. On every canvas of the grid, every bounding point of every
    primitive lies on the canvas, between pixel 0 and pixel 219 along
    both axes.  Floats are taken as exact reals. *)
Theorem grid_canvas_on_canvas (t : stimulus) (p : prim) (a : R * R) :
  t ∈ grid →
  p ∈ img_prims (grid_canvas t) →
  a ∈ prim_points p →
  on_canvas a.
Proof.
  intros Ht [i Hp]%list_elem_of_lookup Ha.
  destruct (grid_canvas_prim t i p Ht Hp) as (c & Hc & Hext).
  assert (t.1.2 ∈ cardinalities) as Hcard.
  { destruct t as [[[[shape size] color] cardinality] background_color].
    by apply grid_elem in Ht as (_ & _ & _ & Hcard & _). }
  apply list_elem_of_lookup_2 in Hc.
  destruct (instance_centers_range _ _ Hcard Hc) as [[Hx0 Hx1] [Hy0 Hy1]].
  apply IZR_le in Hx0, Hx1, Hy0, Hy1.
  rewrite Forall_forall in Hext. destruct (Hext a Ha) as [Hx Hy].
  unfold on_canvas. lra.
Qed.

Lemma grid_canvas_on_canvas_witness : on_canvas (IZR 3, IZR 3).
Proof.
  apply (grid_canvas_on_canvas ("square", 105, "blue", 4, "white")
           (Rectangle [3; 3; 107; 107] "#1E88E5") (IZR 3, IZR 3)).
  - apply grid_elem. repeat split; repeat constructor.
  - constructor.
  - constructor.
Defined.

(** X17. On every canvas of the grid, two different instances keep at
    least 5 pixels between them along one of the axes: any bounding
    point of one and any bounding point of the other are that far
    apart horizontally or vertically.  Floats are taken as exact
    reals. *)
Theorem grid_canvas_apart (t : stimulus) (i j : nat) (p q : prim)
    (a b : R * R) :
  t ∈ grid →
  i ≠ j →
  img_prims (grid_canvas t) !! i = Some p →
  img_prims (grid_canvas t) !! j = Some q →
  a ∈ prim_points p →
  b ∈ prim_points q →
  apart_by 5 a b.
Proof.
  intros Ht Hij Hp Hq Ha Hb.
  destruct (grid_canvas_prim t i p Ht Hp) as (c1 & Hc1 & Hext1).
  destruct (grid_canvas_prim t j q Ht Hq) as (c2 & Hc2 & Hext2).
  assert (t.1.2 ∈ cardinalities) as Hcard.
  { destruct t as [[[[shape size] color] cardinality] background_color].
    by apply grid_elem in Ht as (_ & _ & _ & Hcard & _). }
  pose proof (instance_centers_apart _ _ _ _ _ Hcard Hij Hc1 Hc2) as Hfar.
  rewrite Forall_forall in Hext1, Hext2.
  destruct (Hext1 a Ha) as [Hax Hay]. destruct (Hext2 b Hb) as [Hbx Hby].
  unfold apart_by.
  destruct Hfar as [Hfar|Hfar].
  - assert (c1.1 - c2.1 = 110 ∨ c1.1 - c2.1 = -110) as [H|H] by lia;
      apply (f_equal IZR) in H; rewrite minus_IZR in H; lra.
  - assert (c1.2 - c2.2 = 110 ∨ c1.2 - c2.2 = -110) as [H|H] by lia;
      apply (f_equal IZR) in H; rewrite minus_IZR in H; lra.
Qed.

Lemma grid_canvas_apart_witness :
  apart_by 5 (IZR 162, IZR 107) (IZR 58, IZR 113).
Proof.
  apply (grid_canvas_apart ("circle", 105, "red", 2, "white") 0 1
           (Ellipse [58; 3; 162; 107] "#D81B60")
           (Ellipse [58; 113; 162; 217] "#D81B60")).
  - apply grid_elem. repeat split; repeat constructor.
  - lia.
  - reflexivity.
  - reflexivity.
  - repeat constructor.
  - constructor.
Defined.
